(** * Vexor AF_XDP port filter: [src/network/af_xdp/bpf/xdp_filter.c]

    A shallow embedding of the eBPF/XDP program [xdp_filter_prog] and the
    properties of its classification of received frames.

    The program inspects one frame (the bytes between [ctx->data] and
    [ctx->data_end]), consults the hash map [port_filter] and hands the
    frame to [bpf_redirect_map] on the XSKMAP [xsks_map], or returns
    [XDP_PASS].

    Modelling choices
    - a pointer is its address, a [Z]; the frame occupies the addresses
      from [pkt_base] (inclusive) to [pkt_base + length] (exclusive);
    - a load outside the frame is a fault: the program is a computation in
      a state-and-fault monad and a fault is the result [None];
    - every load, every map lookup and every helper call is appended to a
      trace carried by the machine state, so that what the program touched
      is observable;
    - host byte order is a parameter ([big_endian]): eBPF is compiled
      either for [bpfel] or for [bpfeb]. *)

From Stdlib Require Import ZArith Lia List.
From Stdlib.Strings Require Import Byte.
From stdpp Require Import base option list gmap.
Import ListNotations.

Local Open Scope Z_scope.

(** ** Constants and layouts of the headers the program includes

    The Linux UAPI headers (linux/bpf.h, linux/if_ether.h, linux/ip.h,
    linux/udp.h, linux/in.h) are not part of the repository; the values
    below are theirs. *)

(** [enum xdp_action], linux/bpf.h *)
Definition XDP_ABORTED : Z := 0.
Definition XDP_DROP : Z := 1.
Definition XDP_PASS : Z := 2.
Definition XDP_TX : Z := 3.
Definition XDP_REDIRECT : Z := 4.

(** linux/if_ether.h, linux/in.h *)
Definition ETH_P_IP : Z := 0x0800.
Definition IPPROTO_UDP : Z := 17.

(** [struct ethhdr]: h_dest[6], h_source[6], __be16 h_proto *)
Definition sizeof_ethhdr : Z := 14.
Definition offsetof_h_proto : Z := 12.

(** [struct iphdr]: byte 0 holds version (high nibble) and ihl (low
    nibble) under both bit-field orders; protocol is byte 9 *)
Definition sizeof_iphdr : Z := 20.
Definition offsetof_ihl : Z := 0.
Definition offsetof_protocol : Z := 9.

(** [struct udphdr]: __be16 source, dest, len; __sum16 check *)
Definition sizeof_udphdr : Z := 8.
Definition offsetof_dest : Z := 2.

(** Value encoding of [port_filter] given at its declaration:
    "1 = redirect to AF_XDP, 0 = pass to kernel" *)
Definition ACTION_PASS : Z := 0.
Definition ACTION_REDIRECT : Z := 1.

(** ** Machine state *)

(** The header view a load goes through: [eth->], [ip->] or [udp->]. *)
Inductive view := ETH | IP | UDP.

(** The two maps of the program, as the helpers are handed them:
    [&port_filter] and [&xsks_map]. *)
Inductive bpf_map := PORT_FILTER | XSKS_MAP.

Inductive event :=
| EvLoad (v : view) (addr : Z)                 (* one byte of the frame is read *)
| EvLookup (mp : bpf_map) (key : Z)            (* bpf_map_lookup_elem(mp, &key) *)
| EvRedirectMap (mp : bpf_map) (key flags : Z) (* bpf_redirect_map(mp, key, flags) *).

(** [struct xdp_md], restricted to the fields the program reads. *)
Record xdp_md := {
  data : Z;
  data_end : Z;
  rx_queue_index : Z
}.

Record machine := {
  pkt_base : Z;                     (* address of the first frame byte *)
  pkt_bytes : list byte;            (* the frame *)
  port_filter : gmap Z Z;           (* __u16 port -> __u8 action *)
  xsks_map : gmap Z Z;              (* __u32 queue id -> AF_XDP socket *)
  redirect_info : option (Z * Z);   (* target recorded by bpf_redirect_map *)
  trace : list event                (* oldest event first *)
}.

Definition pkt_end (m : machine) : Z := pkt_base m + Z.of_nat (length (pkt_bytes m)).

Definition log (e : event) (m : machine) : machine :=
  {| pkt_base := pkt_base m; pkt_bytes := pkt_bytes m;
     port_filter := port_filter m; xsks_map := xsks_map m;
     redirect_info := redirect_info m; trace := trace m ++ [e] |}.

Definition set_redirect_info (r : option (Z * Z)) (m : machine) : machine :=
  {| pkt_base := pkt_base m; pkt_bytes := pkt_bytes m;
     port_filter := port_filter m; xsks_map := xsks_map m;
     redirect_info := r; trace := trace m |}.

(** ** The state-and-fault monad *)

Definition M (A : Type) : Type := machine -> option (A * machine).

Definition ret {A} (a : A) : M A := fun m => Some (a, m).

Definition bind {A B} (c : M A) (k : A -> M B) : M B :=
  fun m => match c m with
           | Some (a, m') => k a m'
           | None => None
           end.

Notation "'do' x <- c ; k" := (bind c (fun x => k))
  (at level 10, x name, c at level 100, k at level 200).

(** ** Memory and helper primitives *)

Definition Z_of_byte (b : byte) : Z := Z.of_N (Byte.to_N b).

(** A one-byte load; outside the frame it faults. *)
Definition load8 (v : view) (addr : Z) : M Z := fun m =>
  if pkt_base m <=? addr then
    match pkt_bytes m !! Z.to_nat (addr - pkt_base m) with
    | Some b => Some (Z_of_byte b, log (EvLoad v addr) m)
    | None => None
    end
  else None.

Definition map_contents (mp : bpf_map) (m : machine) : gmap Z Z :=
  match mp with
  | PORT_FILTER => port_filter m
  | XSKS_MAP => xsks_map m
  end.

(** Modelled from the spec: the kernel helper [bpf_map_lookup_elem] is
    not part of the repository. Spec 4.3 and 9: a pure, side-effect-free
    read of one key, [lookup(key) -> Option<Value>]; in C, a pointer to
    the stored value, or NULL. *)
Definition bpf_map_lookup_elem (mp : bpf_map) (key : Z) : M (option Z) := fun m =>
  Some (map_contents mp m !! key, log (EvLookup mp key) m).

(** Modelled from the spec: the kernel helper [bpf_redirect_map] is not
    part of the repository. Spec 4.4: [redirect(queue_id, frame) ->
    Dispatched | FailOpen], with no registered target the frame goes back
    to the default path; the source says of its call "Returns XDP_REDIRECT
    if successful, XDP_PASS if socket not found". The default path is the
    action code the caller passes in the two low bits of [flags]
    (bpf-helpers(7)); other flag bits are refused for an XSKMAP. On
    success the target is recorded for the driver. *)
Definition bpf_redirect_map (mp : bpf_map) (key flags : Z) : M Z := fun m =>
  let m1 := log (EvRedirectMap mp key flags) m in
  if negb (Z.land flags (Z.lnot 3) =? 0) then Some (XDP_ABORTED, m1)
  else match map_contents mp m !! key with
       | Some xs => Some (XDP_REDIRECT, set_redirect_info (Some (key, xs)) m1)
       | None => Some (Z.land flags 3, set_redirect_info None m1)
       end.

Section Host.

(** Byte order of the machine the program is compiled for. *)
Variable big_endian : bool.

(** The 16-bit value of two consecutive bytes, [b0] at the lower address. *)
Definition host16 (b0 b1 : Z) : Z :=
  if big_endian then Z.lor (Z.shiftl b0 8) b1
  else Z.lor b0 (Z.shiftl b1 8).

(** A 16-bit load in host byte order. *)
Definition load16 (v : view) (addr : Z) : M Z :=
  do b0 <- load8 v addr;
  do b1 <- load8 v (addr + 1);
  ret (host16 b0 b1).

(** bpf/bpf_endian.h *)
Definition u16 (x : Z) : Z := Z.land x 0xffff.

Definition bpf_swab16 (x : Z) : Z :=
  u16 (Z.lor (Z.shiftl (Z.land (u16 x) 0x00ff) 8)
             (Z.shiftr (Z.land (u16 x) 0xff00) 8)).

Definition bpf_htons (x : Z) : Z := if big_endian then x else bpf_swab16 x.
Definition bpf_ntohs (x : Z) : Z := if big_endian then x else bpf_swab16 x.

(** ** The program *)

Definition xdp_filter_prog (ctx : xdp_md) : M Z :=
  let data_end := data_end ctx in
  let data := data ctx in
  let eth := data in
  (* Bounds check: Ensure we have at least an Ethernet header *)
  if eth + sizeof_ethhdr >? data_end then ret XDP_PASS else
  (* Only process IPv4 packets *)
  do h_proto <- load16 ETH (eth + offsetof_h_proto);
  if negb (h_proto =? bpf_htons ETH_P_IP) then ret XDP_PASS else
  (* Parse IPv4 header *)
  let ip := eth + sizeof_ethhdr in
  if ip + sizeof_iphdr >? data_end then ret XDP_PASS else
  (* Only process UDP packets *)
  do protocol <- load8 IP (ip + offsetof_protocol);
  if negb (protocol =? IPPROTO_UDP) then ret XDP_PASS else
  (* Parse UDP header *)
  do ver_ihl <- load8 IP (ip + offsetof_ihl);
  let ihl := Z.land ver_ihl 0xf in
  let udp := ip + ihl * 4 in
  if udp + sizeof_udphdr >? data_end then ret XDP_PASS else
  (* Get UDP destination port (network byte order -> host byte order) *)
  do dest <- load16 UDP (udp + offsetof_dest);
  let dport := bpf_ntohs dest in
  (* Check if this port should be redirected to AF_XDP *)
  do action <- bpf_map_lookup_elem PORT_FILTER dport;
  match action with
  | None => ret XDP_PASS
  | Some a =>
      if a =? 0 then ret XDP_PASS else
      (* Port matches filter -> redirect to AF_XDP socket *)
      let queue_id := rx_queue_index ctx in
      bpf_redirect_map XSKS_MAP queue_id XDP_PASS
  end.

End Host.

(** ** Running the program on a frame *)

Definition init_machine (base : Z) (bs : list byte)
    (pf xm : gmap Z Z) : machine :=
  {| pkt_base := base; pkt_bytes := bs; port_filter := pf; xsks_map := xm;
     redirect_info := None; trace := [] |}.

(** The context the driver passes for the frame held by [m], received on
    queue [q]. *)
Definition ctx_of (m : machine) (q : Z) : xdp_md :=
  {| data := pkt_base m; data_end := pkt_end m; rx_queue_index := q |}.

Definition run (be : bool) (base : Z) (bs : list byte)
    (pf xm : gmap Z Z) (q : Z) : option (Z * machine) :=
  let m := init_machine base bs pf xm in
  xdp_filter_prog be (ctx_of m q) m.

(** ** Wire-format fields of a frame

    What a frame says on the wire, read off the byte list directly
    (network byte order, offsets from the first byte), independently of
    the program's loads. *)

Definition frame_len (bs : list byte) : Z := Z.of_nat (length bs).

Definition byte_at (bs : list byte) (i : Z) : Z :=
  from_option Z_of_byte 0 (bs !! Z.to_nat i).

Definition be16_at (bs : list byte) (i : Z) : Z :=
  256 * byte_at bs i + byte_at bs (i + 1).

Definition ethertype (bs : list byte) : Z := be16_at bs 12.
Definition ip_version (bs : list byte) : Z := byte_at bs 14 / 16.
Definition ip_ihl (bs : list byte) : Z := byte_at bs 14 mod 16.
Definition ip_protocol (bs : list byte) : Z := byte_at bs 23.
Definition udp_offset (bs : list byte) : Z := 14 + 4 * ip_ihl bs.
Definition udp_dport (bs : list byte) : Z := be16_at bs (udp_offset bs + 2).

(** The frame passes every check of the program: complete Ethernet
    header, EtherType IPv4, complete fixed IPv4 header, protocol UDP and a
    complete UDP header at the offset the header-length field gives. *)
Definition accepted (bs : list byte) : Prop :=
  14 <= frame_len bs /\ ethertype bs = ETH_P_IP /\
  34 <= frame_len bs /\ ip_protocol bs = IPPROTO_UDP /\
  udp_offset bs + 8 <= frame_len bs.

(** A well-formed Ethernet + IPv4 + UDP frame addressed to port [P]: an
    accepted frame whose IPv4 header is a version-4 header of at least
    five words. The remaining fields are left free. *)
Definition well_formed_udp (bs : list byte) (P : Z) : Prop :=
  accepted bs /\ ip_version bs = 4 /\ 5 <= ip_ihl bs /\ udp_dport bs = P.

(** Every byte a load event names lies inside the frame. *)
Definition load_in_frame (base : Z) (bs : list byte) (e : event) : Prop :=
  match e with
  | EvLoad _ a => base <= a < base + frame_len bs
  | _ => True
  end.

Definition is_udp_load (e : event) : bool :=
  match e with EvLoad UDP _ => true | _ => false end.

Definition is_redirect_call (e : event) : bool :=
  match e with EvRedirectMap _ _ _ => true | _ => false end.

Definition load_below (bound : Z) (e : event) : Prop :=
  match e with
  | EvLoad _ a => a < bound
  | _ => True
  end.

(** ** Read-only computations

    A computation is read-only when every run of it leaves the frame and
    the two tables as they were. The trace and [redirect_info], the
    per-CPU record [bpf_redirect_map] fills for the driver, are not part
    of that store. *)

Definition same_store (m m' : machine) : Prop :=
  pkt_base m' = pkt_base m /\ pkt_bytes m' = pkt_bytes m /\
  port_filter m' = port_filter m /\ xsks_map m' = xsks_map m.

Definition read_only {A} (c : M A) : Prop :=
  forall m a m', c m = Some (a, m') -> same_store m m'.

(** ** The program as a decision tree over wire-format fields

    [xdp_filter_wire] spells out, path by path, the return code and the
    final machine state in terms of the wire-format fields. Lemma
    [run_wire] below proves the program equal to it on every input. *)

Definition final (base : Z) (bs : list byte) (pf xm : gmap Z Z)
    (ri : option (Z * Z)) (tr : list event) : machine :=
  {| pkt_base := base; pkt_bytes := bs; port_filter := pf; xsks_map := xm;
     redirect_info := ri; trace := tr |}.

Definition t_eth (base : Z) : list event :=
  [EvLoad ETH (base + 12); EvLoad ETH (base + 13)].
Definition t_proto (base : Z) : list event :=
  t_eth base ++ [EvLoad IP (base + 23)].
Definition t_ihl (base : Z) : list event :=
  t_proto base ++ [EvLoad IP (base + 14)].
Definition t_udp (base : Z) (bs : list byte) : list event :=
  t_ihl base ++ [EvLoad UDP (base + udp_offset bs + 2);
                 EvLoad UDP (base + udp_offset bs + 3);
                 EvLookup PORT_FILTER (udp_dport bs)].
Definition t_redir (base : Z) (bs : list byte) (q : Z) : list event :=
  t_udp base bs ++ [EvRedirectMap XSKS_MAP q XDP_PASS].

Definition xdp_filter_wire (base : Z) (bs : list byte) (pf xm : gmap Z Z) (q : Z)
    : option (Z * machine) :=
  let fin := final base bs pf xm in
  if frame_len bs <? 14 then Some (XDP_PASS, fin None [])
  else if negb (ethertype bs =? ETH_P_IP) then Some (XDP_PASS, fin None (t_eth base))
  else if frame_len bs <? 34 then Some (XDP_PASS, fin None (t_eth base))
  else if negb (ip_protocol bs =? IPPROTO_UDP) then Some (XDP_PASS, fin None (t_proto base))
  else if frame_len bs <? udp_offset bs + 8 then Some (XDP_PASS, fin None (t_ihl base))
  else match pf !! udp_dport bs with
       | None => Some (XDP_PASS, fin None (t_udp base bs))
       | Some a =>
           if a =? 0 then Some (XDP_PASS, fin None (t_udp base bs))
           else match xm !! q with
                | Some xs => Some (XDP_REDIRECT, fin (Some (q, xs)) (t_redir base bs q))
                | None => Some (XDP_PASS, fin None (t_redir base bs q))
                end
       end.

(** A boolean check of a predicate on [0 .. n-1], for facts about bytes
    that are settled by evaluation. *)
Fixpoint forall_below (n : nat) (P : Z -> bool) : bool :=
  match n with
  | O => true
  | S k => P (Z.of_nat k) && forall_below k P
  end.

(** ** Example frames and tables *)

Definition byte_of_Z (z : Z) : byte := default x00 (Byte.of_N (Z.to_N z)).
Definition frame_of (l : list Z) : list byte := map byte_of_Z l.

Definition eth_ipv4 : list Z := [0;1;2;3;4;5; 6;7;8;9;10;11; 0x08;0x00].
Definition ip_udp (ver_ihl : Z) : list Z :=
  [ver_ihl;0; 0;28; 0;0; 0;0; 64;17; 0;0; 10;0;0;1; 10;0;0;2].
Definition udp_to_8001 : list Z := [0x30;0x39; 0x1f;0x41; 0;8; 0;0].

(** Ethernet + IPv4 (ihl = 5) + UDP to port 8001, no payload: 42 bytes. *)
Definition frame_8001 : list byte :=
  frame_of (eth_ipv4 ++ ip_udp 0x45 ++ udp_to_8001).

(** The same 42 bytes with the header-length field set to 15: the UDP
    header would start at offset 74, past the end of the frame. *)
Definition frame_ihl15 : list byte :=
  frame_of (eth_ipv4 ++ ip_udp 0x4f ++ udp_to_8001).

(** Ethernet + an IPv4 header announcing ihl = 0, protocol UDP; nothing
    after the 20 fixed header bytes. The two bytes at offsets 16 and 17
    are the IPv4 total-length field, here 28. *)
Definition frame_ihl0 : list byte := frame_of (eth_ipv4 ++ ip_udp 0x40).

(** An ARP EtherType in front of the same bytes. *)
Definition frame_arp : list byte :=
  frame_of ([255;255;255;255;255;255; 6;7;8;9;10;11; 0x08;0x06]
            ++ ip_udp 0x45 ++ udp_to_8001).

(** Ethernet + IPv4 with protocol 6 (TCP). *)
Definition frame_tcp : list byte :=
  frame_of (eth_ipv4 ++ [0x45;0; 0;40; 0;0; 0;0; 64;6; 0;0; 10;0;0;1; 10;0;0;2]
            ++ udp_to_8001).

Definition pf_8001_byte (v : Z) : gmap Z Z := {[ 8001 := v ]}.
Definition pf_8001 : gmap Z Z := pf_8001_byte ACTION_REDIRECT.
Definition pf_28 : gmap Z Z := {[ 28 := ACTION_REDIRECT ]}.
Definition xm_q3 : gmap Z Z := {[ 3 := 77 ]}.

(** ** Further observations on a run *)

Definition is_load (e : event) : bool :=
  match e with EvLoad _ _ => true | _ => false end.

Definition is_lookup (e : event) : bool :=
  match e with EvLookup _ _ => true | _ => false end.

Definition count_events (p : event -> bool) (tr : list event) : nat :=
  length (List.filter p tr).

(** What the program may ask of the helpers on queue [q]: lookups go to
    [port_filter] under a 16-bit key, redirects go to [xsks_map] under
    the receive queue with fallback [XDP_PASS]. *)
Definition helper_call_ok (q : Z) (e : event) : Prop :=
  match e with
  | EvLoad _ _ => True
  | EvLookup mp k => mp = PORT_FILTER /\ 0 <= k < 65536
  | EvRedirectMap mp k f => mp = XSKS_MAP /\ k = q /\ f = XDP_PASS
  end.

(** [max_entries] of [xsks_map] at its declaration ("Support up to 64
    queues"). An XSKMAP is indexed like an array: it holds sockets only
    under the keys [0 .. max_entries - 1]. *)
Definition xsks_map_max_entries : Z := 64.

Definition xsks_map_wf (xm : gmap Z Z) : Prop :=
  forall k, is_Some (xm !! k) -> 0 <= k < xsks_map_max_entries.

(** ** A frame inside a larger buffer

    The driver's buffer may extend before [ctx->data] (headroom) and
    after [ctx->data_end]. [triple lo hi c Q]: started in a machine whose
    buffer covers the window from [lo] to [hi] and whose loads so far lie
    in the window, [c] returns a value satisfying [Q] in such a machine. *)

Definition load_within (lo hi : Z) (e : event) : Prop :=
  match e with
  | EvLoad _ a => lo <= a < hi
  | _ => True
  end.

Definition window_ok (lo hi : Z) (m : machine) : Prop :=
  pkt_base m <= lo /\ hi <= pkt_end m /\ Forall (load_within lo hi) (trace m).

Definition triple (lo hi : Z) {A} (c : M A) (Q : A -> Prop) : Prop :=
  forall m, window_ok lo hi m ->
    exists a m', c m = Some (a, m') /\ Q a /\ window_ok lo hi m'.

(** Four bytes of headroom, [frame_8001], four bytes of tailroom. *)
Definition buffer_8001 : list byte :=
  frame_of [9;9;9;9] ++ frame_8001 ++ frame_of [7;7;7;7].


(** The window of [buffer_8001] that starts at [frame_8001] and stops one
    byte before the end of its UDP header. *)
Definition machine_8001_buffered : machine :=
  init_machine 0 buffer_8001 pf_8001 xm_q3.
Definition ctx_8001_cut : xdp_md :=
  {| data := 4; data_end := 45; rx_queue_index := 3 |}.

(** * Lemmas *)

(** ** Bytes and byte order *)

Lemma forall_below_spec n P :
  forall_below n P = true -> forall z, 0 <= z < Z.of_nat n -> P z = true.
Proof.
  induction n as [|k IH]; intros H z Hz; [lia|].
  cbn [forall_below] in H. apply andb_prop in H as [Hk Hr].
  destruct (Z.eq_dec z (Z.of_nat k)) as [->|Hne]; [exact Hk|].
  apply IH; [exact Hr | lia].
Qed.

Lemma forall_bytes2 (P : Z -> Z -> bool) :
  forall_below 256 (fun a => forall_below 256 (P a)) = true ->
  forall a b, 0 <= a < 256 -> 0 <= b < 256 -> P a b = true.
Proof.
  intros H a b Ha Hb.
  apply (forall_below_spec 256 (P a)); [|exact Hb].
  apply (forall_below_spec 256 (fun a => forall_below 256 (P a))); assumption.
Qed.

Lemma Z_of_byte_range b : 0 <= Z_of_byte b < 256.
Proof.
  unfold Z_of_byte. pose proof (Byte.to_N_bounded b). lia.
Qed.

Lemma ntohs_host16 be b0 b1 :
  0 <= b0 < 256 -> 0 <= b1 < 256 ->
  bpf_ntohs be (host16 be b0 b1) = 256 * b0 + b1.
Proof.
  intros H0 H1. apply Z.eqb_eq.
  revert b0 b1 H0 H1.
  apply (forall_bytes2 (fun b0 b1 => bpf_ntohs be (host16 be b0 b1) =? 256 * b0 + b1)).
  destruct be; vm_compute; reflexivity.
Qed.

Lemma h_proto_is_ip be b0 b1 :
  0 <= b0 < 256 -> 0 <= b1 < 256 ->
  (host16 be b0 b1 =? bpf_htons be ETH_P_IP) = (256 * b0 + b1 =? ETH_P_IP).
Proof.
  intros H0 H1. apply Bool.eqb_prop.
  revert b0 b1 H0 H1.
  apply (forall_bytes2 (fun b0 b1 =>
    Bool.eqb (host16 be b0 b1 =? bpf_htons be ETH_P_IP) (256 * b0 + b1 =? ETH_P_IP))).
  destruct be; vm_compute; reflexivity.
Qed.

Lemma ihl_low_nibble b : 0 <= b -> Z.land b 0xf = b mod 16.
Proof.
  intros _. change 0xf with (Z.ones 4). rewrite Z.land_ones by lia. reflexivity.
Qed.

Lemma byte_at_range bs i : 0 <= byte_at bs i < 256.
Proof.
  unfold byte_at. destruct (bs !! Z.to_nat i) as [b|]; simpl; [apply Z_of_byte_range | lia].
Qed.

Lemma ip_ihl_range bs : 0 <= ip_ihl bs <= 15.
Proof. unfold ip_ihl. pose proof (Z.mod_pos_bound (byte_at bs 14) 16). lia. Qed.

Lemma load8_in_frame v addr i m :
  addr = pkt_base m + i -> 0 <= i < frame_len (pkt_bytes m) ->
  load8 v addr m = Some (byte_at (pkt_bytes m) i, log (EvLoad v addr) m).
Proof.
  intros -> Hi. unfold load8, byte_at, frame_len in *.
  replace (pkt_base m + i - pkt_base m) with i by lia.
  destruct (Z.leb_spec (pkt_base m) (pkt_base m + i)); [|lia].
  destruct (lookup_lt_is_Some_2 (pkt_bytes m) (Z.to_nat i)) as [b ->]; [lia|].
  reflexivity.
Qed.

Lemma bind_load8 {B} v addr i (k : Z -> M B) m :
  addr = pkt_base m + i -> 0 <= i < frame_len (pkt_bytes m) ->
  bind (load8 v addr) k m = k (byte_at (pkt_bytes m) i) (log (EvLoad v addr) m).
Proof.
  intros Ha Hi. unfold bind. rewrite (load8_in_frame v addr i m Ha Hi). reflexivity.
Qed.

Lemma bind_load16 {B} be v addr i (k : Z -> M B) m :
  addr = pkt_base m + i -> 0 <= i -> i + 1 < frame_len (pkt_bytes m) ->
  bind (load16 be v addr) k m =
  k (host16 be (byte_at (pkt_bytes m) i) (byte_at (pkt_bytes m) (i + 1)))
    (log (EvLoad v (addr + 1)) (log (EvLoad v addr) m)).
Proof.
  intros Ha H0 H1. unfold load16, bind.
  rewrite (load8_in_frame v addr i m Ha) by lia.
  rewrite (load8_in_frame v (addr + 1) (i + 1) (log (EvLoad v addr) m)); [reflexivity| |].
  - cbn [log pkt_base]. lia.
  - cbn [log pkt_bytes]. lia.
Qed.

(** ** The program equals its decision tree *)

Lemma gtb_frame base k n : (base + k >? base + n) = (n <? k).
Proof.
  rewrite Z.gtb_ltb.
  destruct (Z.ltb_spec (base + n) (base + k)), (Z.ltb_spec n k); lia || reflexivity.
Qed.

Lemma init_machine_final base bs pf xm :
  init_machine base bs pf xm = final base bs pf xm None [].
Proof. reflexivity. Qed.

Lemma log_final e base bs pf xm ri tr :
  log e (final base bs pf xm ri tr) = final base bs pf xm ri (tr ++ [e]).
Proof. reflexivity. Qed.

Lemma set_redirect_info_final r base bs pf xm ri tr :
  set_redirect_info r (final base bs pf xm ri tr) = final base bs pf xm r tr.
Proof. reflexivity. Qed.

Lemma path_eq (r : Z) base bs pf xm ri (tr tr' : list event) :
  tr = tr' ->
  Some (r, final base bs pf xm ri tr) = Some (r, final base bs pf xm ri tr').
Proof. intros ->. reflexivity. Qed.

Ltac trace_eq :=
  cbn [app]; repeat (apply (f_equal2 cons));
  try reflexivity; try (f_equal; lia).

Ltac close_path :=
  unfold ret; rewrite ?log_final, ?set_redirect_info_final;
  apply path_eq; unfold t_redir, t_udp, t_ihl, t_proto, t_eth, udp_offset;
  trace_eq.

Lemma run_wire be base bs pf xm q :
  run be base bs pf xm q = xdp_filter_wire base bs pf xm q.
Proof.
  unfold run, xdp_filter_prog, xdp_filter_wire.
  cbn [ctx_of data data_end rx_queue_index].
  change (pkt_end (init_machine base bs pf xm)) with (base + frame_len bs).
  change (pkt_base (init_machine base bs pf xm)) with base.
  rewrite init_machine_final.
  unfold sizeof_ethhdr, sizeof_iphdr, sizeof_udphdr, offsetof_h_proto,
    offsetof_protocol, offsetof_ihl, offsetof_dest.
  rewrite gtb_frame.
  destruct (Z.ltb_spec (frame_len bs) 14) as [|Heth]; [reflexivity|].
  rewrite (bind_load16 be ETH (base + 12) 12) by (cbn; lia).
  rewrite !log_final. cbn [pkt_bytes final].
  rewrite h_proto_is_ip by apply byte_at_range.
  fold (be16_at bs 12). fold (ethertype bs).
  destruct (ethertype bs =? ETH_P_IP); cbn [negb]; [|close_path].
  replace (base + 14 + 20) with (base + 34) by lia. rewrite gtb_frame.
  destruct (Z.ltb_spec (frame_len bs) 34) as [|Hip]; [close_path|].
  rewrite (bind_load8 IP (base + 14 + 9) 23) by (cbn; lia).
  rewrite !log_final. cbn [pkt_bytes final].
  fold (ip_protocol bs).
  destruct (ip_protocol bs =? IPPROTO_UDP); cbn [negb]; [|close_path].
  rewrite (bind_load8 IP (base + 14 + 0) 14) by (cbn; lia).
  rewrite !log_final. cbn [pkt_bytes final].
  rewrite ihl_low_nibble by apply byte_at_range. fold (ip_ihl bs).
  pose proof (ip_ihl_range bs) as Hihl.
  replace (base + 14 + ip_ihl bs * 4 + 8) with (base + (udp_offset bs + 8))
    by (unfold udp_offset; lia).
  rewrite gtb_frame.
  destruct (Z.ltb_spec (frame_len bs) (udp_offset bs + 8)) as [|Hudp];
    [close_path|].
  rewrite (bind_load16 be UDP _ (udp_offset bs + 2))
    by (cbn; unfold udp_offset in *; lia).
  rewrite !log_final. cbn [pkt_bytes final].
  rewrite ntohs_host16 by apply byte_at_range.
  fold (be16_at bs (udp_offset bs + 2)). fold (udp_dport bs).
  unfold bind, bpf_map_lookup_elem.
  rewrite !log_final. cbn [map_contents port_filter final].
  destruct (pf !! udp_dport bs) as [a|]; [|close_path].
  destruct (a =? 0); [close_path|].
  unfold bpf_redirect_map.
  change (Z.land XDP_PASS (Z.lnot 3) =? 0) with true. cbn [negb].
  rewrite !log_final. cbn [map_contents xsks_map final].
  change (Z.land XDP_PASS 3) with XDP_PASS.
  destruct (xm !! q) as [xs|]; close_path.
Qed.

(** *** The outcome on each path *)

Section Paths.
Variables (be : bool) (base : Z) (bs : list byte) (pf xm : gmap Z Z) (q : Z).

Lemma run_short_eth :
  frame_len bs < 14 ->
  run be base bs pf xm q = Some (XDP_PASS, final base bs pf xm None []).
Proof.
  intros H. rewrite run_wire. unfold xdp_filter_wire.
  destruct (Z.ltb_spec (frame_len bs) 14); [reflexivity | lia].
Qed.

Lemma run_not_ip :
  14 <= frame_len bs -> ethertype bs <> ETH_P_IP ->
  run be base bs pf xm q = Some (XDP_PASS, final base bs pf xm None (t_eth base)).
Proof.
  intros H Ht. rewrite run_wire. unfold xdp_filter_wire.
  destruct (Z.ltb_spec (frame_len bs) 14); [lia|].
  destruct (Z.eqb_spec (ethertype bs) ETH_P_IP); [contradiction | reflexivity].
Qed.

Lemma run_short_ip :
  14 <= frame_len bs < 34 -> ethertype bs = ETH_P_IP ->
  run be base bs pf xm q = Some (XDP_PASS, final base bs pf xm None (t_eth base)).
Proof.
  intros H Ht. rewrite run_wire. unfold xdp_filter_wire.
  destruct (Z.ltb_spec (frame_len bs) 14); [lia|].
  rewrite Ht, Z.eqb_refl. cbn [negb].
  destruct (Z.ltb_spec (frame_len bs) 34); [reflexivity | lia].
Qed.

Lemma run_not_udp :
  34 <= frame_len bs -> ethertype bs = ETH_P_IP -> ip_protocol bs <> IPPROTO_UDP ->
  run be base bs pf xm q = Some (XDP_PASS, final base bs pf xm None (t_proto base)).
Proof.
  intros H Ht Hp. rewrite run_wire. unfold xdp_filter_wire.
  destruct (Z.ltb_spec (frame_len bs) 14); [lia|].
  rewrite Ht, Z.eqb_refl. cbn [negb].
  destruct (Z.ltb_spec (frame_len bs) 34); [lia|].
  destruct (Z.eqb_spec (ip_protocol bs) IPPROTO_UDP); [contradiction | reflexivity].
Qed.

Lemma run_short_udp :
  34 <= frame_len bs -> ethertype bs = ETH_P_IP -> ip_protocol bs = IPPROTO_UDP ->
  frame_len bs < udp_offset bs + 8 ->
  run be base bs pf xm q = Some (XDP_PASS, final base bs pf xm None (t_ihl base)).
Proof.
  intros H Ht Hp Hu. rewrite run_wire. unfold xdp_filter_wire.
  destruct (Z.ltb_spec (frame_len bs) 14); [lia|].
  rewrite Ht, Z.eqb_refl. cbn [negb].
  destruct (Z.ltb_spec (frame_len bs) 34); [lia|].
  rewrite Hp, Z.eqb_refl. cbn [negb].
  destruct (Z.ltb_spec (frame_len bs) (udp_offset bs + 8)); [reflexivity | lia].
Qed.

Lemma run_accepted :
  accepted bs ->
  run be base bs pf xm q =
  match pf !! udp_dport bs with
  | None => Some (XDP_PASS, final base bs pf xm None (t_udp base bs))
  | Some a =>
      if a =? 0 then Some (XDP_PASS, final base bs pf xm None (t_udp base bs))
      else match xm !! q with
           | Some xs => Some (XDP_REDIRECT,
                              final base bs pf xm (Some (q, xs)) (t_redir base bs q))
           | None => Some (XDP_PASS, final base bs pf xm None (t_redir base bs q))
           end
  end.
Proof.
  intros (He & Ht & Hi & Hp & Hu). rewrite run_wire. unfold xdp_filter_wire.
  destruct (Z.ltb_spec (frame_len bs) 14); [lia|].
  rewrite Ht, Z.eqb_refl. cbn [negb].
  destruct (Z.ltb_spec (frame_len bs) 34); [lia|].
  rewrite Hp, Z.eqb_refl. cbn [negb].
  destruct (Z.ltb_spec (frame_len bs) (udp_offset bs + 8)); [lia | reflexivity].
Qed.

End Paths.

(** ** Loads stay inside the frame *)

Lemma udp_offset_ge bs : 14 <= udp_offset bs <= 74.
Proof. unfold udp_offset. pose proof (ip_ihl_range bs). lia. Qed.

Lemma loads_in_frame_eth base bs :
  14 <= frame_len bs -> Forall (load_in_frame base bs) (t_eth base).
Proof. intros H. unfold t_eth. repeat constructor; cbn; lia. Qed.

Lemma loads_in_frame_proto base bs :
  34 <= frame_len bs -> Forall (load_in_frame base bs) (t_proto base).
Proof.
  intros H. unfold t_proto. apply Forall_app. split.
  - apply loads_in_frame_eth. lia.
  - repeat constructor; cbn; lia.
Qed.

Lemma loads_in_frame_ihl base bs :
  34 <= frame_len bs -> Forall (load_in_frame base bs) (t_ihl base).
Proof.
  intros H. unfold t_ihl. apply Forall_app. split.
  - apply loads_in_frame_proto. lia.
  - repeat constructor; cbn; lia.
Qed.

Lemma loads_in_frame_udp base bs :
  34 <= frame_len bs -> udp_offset bs + 8 <= frame_len bs ->
  Forall (load_in_frame base bs) (t_udp base bs).
Proof.
  intros H Hu. pose proof (udp_offset_ge bs).
  unfold t_udp. apply Forall_app. split.
  - apply loads_in_frame_ihl. lia.
  - repeat constructor; cbn; lia.
Qed.

Lemma loads_in_frame_redir base bs q :
  34 <= frame_len bs -> udp_offset bs + 8 <= frame_len bs ->
  Forall (load_in_frame base bs) (t_redir base bs q).
Proof.
  intros H Hu. unfold t_redir. apply Forall_app. split.
  - apply loads_in_frame_udp; assumption.
  - repeat constructor.
Qed.

(** ** The program is read-only *)

Lemma same_store_refl m : same_store m m.
Proof. repeat split. Qed.

Lemma same_store_trans m1 m2 m3 :
  same_store m1 m2 -> same_store m2 m3 -> same_store m1 m3.
Proof.
  intros (A1 & A2 & A3 & A4) (B1 & B2 & B3 & B4).
  repeat split; congruence.
Qed.

Lemma read_only_ret {A} (a : A) : read_only (ret a).
Proof. intros m a' m' [= _ <-]. apply same_store_refl. Qed.

Lemma read_only_bind {A B} (c : M A) (k : A -> M B) :
  read_only c -> (forall a, read_only (k a)) -> read_only (bind c k).
Proof.
  intros Hc Hk m b m' H. unfold bind in H.
  destruct (c m) as [[a m1]|] eqn:E; [|discriminate].
  eapply same_store_trans; [eapply Hc, E | eapply Hk, H].
Qed.

Lemma read_only_if {A} (b : bool) (c1 c2 : M A) :
  read_only c1 -> read_only c2 -> read_only (if b then c1 else c2).
Proof. destruct b; auto. Qed.

Lemma read_only_load8 v addr : read_only (load8 v addr).
Proof.
  intros m a m' H. unfold load8 in H.
  destruct (pkt_base m <=? addr); [|discriminate].
  destruct (pkt_bytes m !! Z.to_nat (addr - pkt_base m)); [|discriminate].
  injection H as _ <-. repeat split.
Qed.

Lemma read_only_lookup mp key : read_only (bpf_map_lookup_elem mp key).
Proof. intros m a m' [= _ <-]. repeat split. Qed.

Lemma read_only_redirect_map mp key flags : read_only (bpf_redirect_map mp key flags).
Proof.
  intros m a m' H. unfold bpf_redirect_map in H.
  destruct (negb _); [injection H as _ <-; repeat split|].
  destruct (map_contents mp m !! key); injection H as _ <-; repeat split.
Qed.

Create HintDb read_only.
#[local] Hint Resolve read_only_ret read_only_bind read_only_if read_only_load8
  read_only_lookup read_only_redirect_map : read_only.

Lemma read_only_load16 be v addr : read_only (load16 be v addr).
Proof. unfold load16. auto with read_only. Qed.

#[local] Hint Resolve read_only_load16 : read_only.

Ltac read_only_step :=
  match goal with
  | |- read_only (if _ then _ else _) => apply read_only_if
  | |- read_only (bind _ _) => apply read_only_bind
  | |- forall _, read_only _ => intro
  | |- read_only (match ?o with Some _ => _ | None => _ end) => destruct o
  | |- read_only _ => solve [auto with read_only]
  end.

Lemma read_only_prog be ctx : read_only (xdp_filter_prog be ctx).
Proof. unfold xdp_filter_prog. cbv zeta. repeat read_only_step. Qed.

Ltac unfold_traces :=
  unfold t_redir, t_udp, t_ihl, t_proto, t_eth in *;
  cbn [trace final redirect_info app In is_udp_load is_redirect_call] in *.

Ltac in_cases H :=
  repeat (destruct H as [H|H]); try discriminate H; try contradiction.


Lemma run_total be base bs pf xm q :
  exists r m', run be base bs pf xm q = Some (r, m').
Proof.
  rewrite run_wire. unfold xdp_filter_wire.
  repeat match goal with
         | |- context [if ?c then _ else _] => destruct c
         | |- context [match ?o with Some _ => _ | None => _ end] => destruct o
         end;
    do 2 eexists; reflexivity.
Qed.

(** * Properties of the classifier *)

(** ** The scenario of the spec

    Ethernet + IPv4 (ihl = 5) + UDP to port 8001 on queue 3: redirected
    through queue 3's socket when the table says redirect and the queue
    has a socket; passed when the table says pass, and when the table has
    no entry for the port. *)

Example scenario_redirect :
  run false 0 frame_8001 pf_8001 xm_q3 3
  = Some (XDP_REDIRECT, final 0 frame_8001 pf_8001 xm_q3 (Some (3, 77))
            [EvLoad ETH 12; EvLoad ETH 13; EvLoad IP 23; EvLoad IP 14;
             EvLoad UDP 36; EvLoad UDP 37; EvLookup PORT_FILTER 8001;
             EvRedirectMap XSKS_MAP 3 XDP_PASS]).
Proof. vm_compute. reflexivity. Qed.

Example scenario_pass_entry :
  exists m', run false 0 frame_8001 (pf_8001_byte ACTION_PASS) xm_q3 3
             = Some (XDP_PASS, m').
Proof. eexists. vm_compute. reflexivity. Qed.

Example scenario_no_entry :
  exists m', run false 0 frame_8001 pf_28 xm_q3 3 = Some (XDP_PASS, m').
Proof. eexists. vm_compute. reflexivity. Qed.

(** ** Frames at the header boundaries *)

Example empty_frame_passes :
  run false 0 [] pf_8001 xm_q3 3 = Some (XDP_PASS, final 0 [] pf_8001 xm_q3 None []).
Proof. vm_compute. reflexivity. Qed.

Example one_short_of_ethhdr_passes :
  let bs := take 13 frame_8001 in
  run false 0 bs pf_8001 xm_q3 3 = Some (XDP_PASS, final 0 bs pf_8001 xm_q3 None []).
Proof. vm_compute. reflexivity. Qed.

Example one_short_of_iphdr_passes :
  let bs := take 33 frame_8001 in
  run false 0 bs pf_8001 xm_q3 3
  = Some (XDP_PASS, final 0 bs pf_8001 xm_q3 None [EvLoad ETH 12; EvLoad ETH 13]).
Proof. vm_compute. reflexivity. Qed.

Example one_short_of_udphdr_passes :
  let bs := take 41 frame_8001 in
  run false 0 bs pf_8001 xm_q3 3
  = Some (XDP_PASS, final 0 bs pf_8001 xm_q3 None
            [EvLoad ETH 12; EvLoad ETH 13; EvLoad IP 23; EvLoad IP 14]).
Proof. vm_compute. reflexivity. Qed.

(** C1 (totality and memory safety). On every frame, for either byte
    order, any tables and any queue, the program does not fault, returns
    [XDP_PASS] or [XDP_REDIRECT] (two different codes), and every byte it
    loaded lies at an address from [data] up to, and not including,
    [data_end]. *)
Theorem xdp_filter_prog_total_in_bounds be base bs pf xm q :
  exists r m',
    run be base bs pf xm q = Some (r, m') /\
    (r = XDP_PASS \/ r = XDP_REDIRECT) /\ XDP_PASS <> XDP_REDIRECT /\
    Forall (load_in_frame base bs) (trace m').
Proof.
  assert (Hne : XDP_PASS <> XDP_REDIRECT) by (unfold XDP_PASS, XDP_REDIRECT; lia).
  destruct (Z.lt_ge_cases (frame_len bs) 14) as [|He].
  { do 2 eexists. split; [apply run_short_eth; assumption|].
    split; [left; reflexivity | split; [exact Hne | constructor]]. }
  destruct (Z.eq_dec (ethertype bs) ETH_P_IP) as [Ht|Ht].
  2:{ do 2 eexists. split; [apply run_not_ip; assumption|].
      split; [left; reflexivity | split; [exact Hne|]].
      apply loads_in_frame_eth; assumption. }
  destruct (Z.lt_ge_cases (frame_len bs) 34) as [|Hi].
  { do 2 eexists. split; [apply run_short_ip; [lia | assumption]|].
    split; [left; reflexivity | split; [exact Hne|]].
    apply loads_in_frame_eth; assumption. }
  destruct (Z.eq_dec (ip_protocol bs) IPPROTO_UDP) as [Hp|Hp].
  2:{ do 2 eexists. split; [apply run_not_udp; assumption|].
      split; [left; reflexivity | split; [exact Hne|]].
      apply loads_in_frame_proto; assumption. }
  destruct (Z.lt_ge_cases (frame_len bs) (udp_offset bs + 8)) as [|Hu].
  { do 2 eexists. split; [apply run_short_udp; assumption|].
    split; [left; reflexivity | split; [exact Hne|]].
    apply loads_in_frame_ihl; assumption. }
  rewrite run_accepted by (repeat split; assumption).
  destruct (pf !! udp_dport bs) as [a|].
  2:{ do 2 eexists. split; [reflexivity|].
      split; [left; reflexivity | split; [exact Hne|]].
      apply loads_in_frame_udp; assumption. }
  destruct (a =? 0).
  { do 2 eexists. split; [reflexivity|].
    split; [left; reflexivity | split; [exact Hne|]].
    apply loads_in_frame_udp; assumption. }
  destruct (xm !! q) as [xs|]; do 2 eexists; (split; [reflexivity|]).
  - split; [right; reflexivity | split; [exact Hne|]].
    apply loads_in_frame_redir; assumption.
  - split; [left; reflexivity | split; [exact Hne|]].
    apply loads_in_frame_redir; assumption.
Qed.

(** C2, as stated, fails where the UDP header ends exactly at the frame
    end. [frame_8001] is 42 bytes long with ihl = 5, so the UDP header
    starts at offset 34 and 34 + 8 = 42 falls at the frame end; the check
    [(void * )(udp + 1) > data_end] does not fire, the destination port is
    read at offsets 36 and 37 and the frame is redirected. *)
Lemma udp_header_ending_at_frame_end_is_read :
  (14 <= frame_len frame_8001 /\ ethertype frame_8001 = ETH_P_IP /\
   34 <= frame_len frame_8001 /\ ip_protocol frame_8001 = IPPROTO_UDP /\
   ip_ihl frame_8001 = 5 /\ frame_len frame_8001 = 42) /\
  udp_offset frame_8001 + sizeof_udphdr >= frame_len frame_8001 /\
  (exists m', run false 0 frame_8001 pf_8001 xm_q3 3 = Some (XDP_REDIRECT, m') /\
              In (EvLoad UDP 36) (trace m') /\ In (EvLoad UDP 37) (trace m')) /\
  ~ (exists m', run false 0 frame_8001 pf_8001 xm_q3 3 = Some (XDP_PASS, m')).
Proof.
  split; [vm_compute; repeat split; congruence|].
  split; [vm_compute; congruence|].
  split.
  - eexists. split; [vm_compute; reflexivity|]. cbn. tauto.
  - intros [m' H]. vm_compute in H. discriminate H.
Qed.

(** C2, amended. For every frame with a complete Ethernet header,
    EtherType IPv4, a complete fixed IPv4 header and protocol UDP, the UDP
    header is taken at [ip + ihl * 4], that is at frame offset
    [14 + 4 * ihl], and
    - if that offset plus the UDP header size lies strictly beyond the
      frame end, the program returns [XDP_PASS], no load goes through the
      UDP view and no byte at or after the UDP offset is loaded;
    - a load through the UDP view happens only when the UDP header fits,
      and then inside the eight bytes of that header;
    - when the UDP header fits (also when it ends exactly at the frame
      end) the two bytes of its destination port are loaded. *)
Theorem udp_header_read_only_after_bounds_check be base bs pf xm q :
  14 <= frame_len bs -> ethertype bs = ETH_P_IP ->
  34 <= frame_len bs -> ip_protocol bs = IPPROTO_UDP ->
  exists r m',
    run be base bs pf xm q = Some (r, m') /\
    (frame_len bs < udp_offset bs + sizeof_udphdr ->
       r = XDP_PASS /\
       Forall (fun e => is_udp_load e = false) (trace m') /\
       Forall (load_below (base + udp_offset bs)) (trace m')) /\
    (forall a, In (EvLoad UDP a) (trace m') ->
       udp_offset bs + sizeof_udphdr <= frame_len bs /\
       base + udp_offset bs <= a < base + udp_offset bs + sizeof_udphdr) /\
    (udp_offset bs + sizeof_udphdr <= frame_len bs ->
       In (EvLoad UDP (base + (14 + 4 * ip_ihl bs) + offsetof_dest)) (trace m') /\
       In (EvLoad UDP (base + (14 + 4 * ip_ihl bs) + offsetof_dest + 1)) (trace m')).
Proof.
  intros He Ht Hi Hp. unfold sizeof_udphdr, offsetof_dest.
  destruct (Z.lt_ge_cases (frame_len bs) (udp_offset bs + 8)) as [Hu|Hu].
  - do 2 eexists. split; [apply run_short_udp; assumption|].
    unfold_traces. split; [|split].
    + intros _. split; [reflexivity|].
      split; repeat constructor; unfold load_below, udp_offset in *; lia.
    + intros a Hin. in_cases Hin.
    + intros Hge. lia.
  - rewrite run_accepted by (repeat split; assumption).
    assert (Hloads : forall r ri tr,
      (tr = t_udp base bs \/ tr = t_redir base bs q) ->
      exists r' m', Some (r, final base bs pf xm ri tr) = Some (r', m') /\
        (frame_len bs < udp_offset bs + 8 ->
           r' = XDP_PASS /\
           Forall (fun e => is_udp_load e = false) (trace m') /\
           Forall (load_below (base + udp_offset bs)) (trace m')) /\
        (forall a, In (EvLoad UDP a) (trace m') ->
           udp_offset bs + 8 <= frame_len bs /\
           base + udp_offset bs <= a < base + udp_offset bs + 8) /\
        (udp_offset bs + 8 <= frame_len bs ->
           In (EvLoad UDP (base + (14 + 4 * ip_ihl bs) + 2)) (trace m') /\
           In (EvLoad UDP (base + (14 + 4 * ip_ihl bs) + 2 + 1)) (trace m'))).
    { intros r ri tr Htr. do 2 eexists. split; [reflexivity|].
      split; [intros; lia|].
      fold (udp_offset bs).
      replace (base + udp_offset bs + 2 + 1) with (base + udp_offset bs + 3) by lia.
      split.
      - intros a Hin. split; [assumption|].
        destruct Htr as [-> | ->]; unfold_traces; in_cases Hin;
          injection Hin as <-; lia.
      - intros _. destruct Htr as [-> | ->]; unfold_traces; tauto. }
    destruct (pf !! udp_dport bs) as [v|]; [|apply Hloads; left; reflexivity].
    destruct (v =? 0); [apply Hloads; left; reflexivity|].
    destruct (xm !! q); apply Hloads; right; reflexivity.
Qed.

(** With ihl = 15 on a 42-byte frame the UDP offset is 74: the frame is
    passed and nothing is loaded through the UDP view. *)
Lemma udp_header_read_only_after_bounds_check_witness :
  (14 <= frame_len frame_ihl15 /\ ethertype frame_ihl15 = ETH_P_IP /\
   34 <= frame_len frame_ihl15 /\ ip_protocol frame_ihl15 = IPPROTO_UDP) /\
  (ip_ihl frame_ihl15 = 15 /\ udp_offset frame_ihl15 = 74) /\
  exists r m',
    run false 0 frame_ihl15 pf_8001 xm_q3 3 = Some (r, m') /\
    r = XDP_PASS /\
    Forall (fun e => is_udp_load e = false) (trace m').
Proof.
  assert (He : 14 <= frame_len frame_ihl15) by (vm_compute; congruence).
  assert (Ht : ethertype frame_ihl15 = ETH_P_IP) by (vm_compute; reflexivity).
  assert (Hi : 34 <= frame_len frame_ihl15) by (vm_compute; congruence).
  assert (Hp : ip_protocol frame_ihl15 = IPPROTO_UDP) by (vm_compute; reflexivity).
  split; [repeat split; assumption|].
  split; [vm_compute; split; reflexivity|].
  destruct (udp_header_read_only_after_bounds_check false 0 frame_ihl15
              pf_8001 xm_q3 3 He Ht Hi Hp) as (r & m' & Hrun & Hshort & _).
  exists r, m'. split; [exact Hrun|].
  destruct Hshort as (Hr & Hno & _); [vm_compute; reflexivity|].
  split; assumption.
Defined.

(** C3 (policy fidelity). For a well-formed Ethernet + IPv4 + UDP frame
    addressed to port [P]: when [port_filter] maps [P] to the redirect
    action and [xsks_map] has a socket for the receive queue, the program
    returns [XDP_REDIRECT] and that socket is the recorded target; when
    [port_filter] maps [P] to the pass action, or has no entry for [P],
    it returns [XDP_PASS]. *)
Theorem policy_fidelity be base bs pf xm q P :
  well_formed_udp bs P ->
  (forall xs, pf !! P = Some ACTION_REDIRECT -> xm !! q = Some xs ->
     exists m', run be base bs pf xm q = Some (XDP_REDIRECT, m') /\
                redirect_info m' = Some (q, xs)) /\
  (pf !! P = Some ACTION_PASS \/ pf !! P = None ->
     exists m', run be base bs pf xm q = Some (XDP_PASS, m')).
Proof.
  intros (Hacc & _ & _ & <-). rewrite (run_accepted be base bs pf xm q Hacc).
  split.
  - intros xs -> ->. cbn. eexists. split; reflexivity.
  - intros [-> | ->]; cbn; eexists; reflexivity.
Qed.

Lemma policy_fidelity_witness :
  well_formed_udp frame_8001 8001 /\
  exists m', run false 0 frame_8001 pf_8001 xm_q3 3 = Some (XDP_REDIRECT, m') /\
             redirect_info m' = Some (3, 77).
Proof.
  assert (H : well_formed_udp frame_8001 8001)
    by (vm_compute; repeat split; congruence).
  split; [exact H|].
  apply (proj1 (policy_fidelity false 0 frame_8001 pf_8001 xm_q3 3 8001 H) 77);
    vm_compute; reflexivity.
Defined.

(** C4 (fail open). For a well-formed IPv4/UDP frame whose port has the
    redirect action while [xsks_map] has no socket for the receive queue,
    the program returns [XDP_PASS]: neither [XDP_DROP] nor [XDP_ABORTED],
    and no redirect target is recorded. *)
Theorem fail_open_without_target be base bs pf xm q P :
  well_formed_udp bs P ->
  pf !! P = Some ACTION_REDIRECT -> xm !! q = None ->
  exists r m',
    run be base bs pf xm q = Some (r, m') /\
    r = XDP_PASS /\ r <> XDP_DROP /\ r <> XDP_ABORTED /\
    redirect_info m' = None.
Proof.
  intros (Hacc & _ & _ & <-) Hpf Hxm.
  rewrite (run_accepted be base bs pf xm q Hacc), Hpf, Hxm. cbn.
  do 2 eexists. split; [reflexivity|].
  unfold XDP_PASS, XDP_DROP, XDP_ABORTED. repeat split; lia.
Qed.

Lemma fail_open_without_target_witness :
  well_formed_udp frame_8001 8001 /\
  pf_8001 !! 8001 = Some ACTION_REDIRECT /\ xm_q3 !! 2 = None /\
  exists r m',
    run false 0 frame_8001 pf_8001 xm_q3 2 = Some (r, m') /\
    r = XDP_PASS /\ r <> XDP_DROP /\ r <> XDP_ABORTED /\
    redirect_info m' = None.
Proof.
  assert (H : well_formed_udp frame_8001 8001)
    by (vm_compute; repeat split; congruence).
  assert (Hpf : pf_8001 !! 8001 = Some ACTION_REDIRECT) by (vm_compute; reflexivity).
  assert (Hxm : xm_q3 !! 2 = None) by (vm_compute; reflexivity).
  repeat (split; [assumption|]).
  exact (fail_open_without_target false 0 frame_8001 pf_8001 xm_q3 2 8001 H Hpf Hxm).
Defined.

(** C5 (non-IPv4 passthrough). A frame that holds a complete Ethernet
    header whose EtherType is not IPv4 is passed, whatever follows the
    header and whatever the two tables hold; only the two EtherType bytes
    are loaded and no table is consulted. *)
Theorem non_ipv4_passthrough be base bs pf xm q :
  14 <= frame_len bs -> ethertype bs <> ETH_P_IP ->
  exists m', run be base bs pf xm q = Some (XDP_PASS, m') /\
             trace m' = [EvLoad ETH (base + 12); EvLoad ETH (base + 13)].
Proof.
  intros He Ht. eexists. split; [apply run_not_ip; assumption | reflexivity].
Qed.

Lemma non_ipv4_passthrough_witness :
  14 <= frame_len frame_arp /\ ethertype frame_arp <> ETH_P_IP /\
  exists m', run false 0 frame_arp pf_8001 xm_q3 3 = Some (XDP_PASS, m') /\
             trace m' = [EvLoad ETH (0 + 12); EvLoad ETH (0 + 13)].
Proof.
  assert (He : 14 <= frame_len frame_arp) by (vm_compute; congruence).
  assert (Ht : ethertype frame_arp <> ETH_P_IP) by (vm_compute; congruence).
  repeat (split; [assumption|]).
  exact (non_ipv4_passthrough false 0 frame_arp pf_8001 xm_q3 3 He Ht).
Defined.

(** C6 (non-UDP passthrough). A frame with a complete Ethernet header,
    EtherType IPv4 and a complete fixed IPv4 header whose protocol is not
    UDP is passed, whatever the tables hold; no table is consulted. *)
Theorem non_udp_passthrough be base bs pf xm q :
  14 <= frame_len bs -> ethertype bs = ETH_P_IP ->
  34 <= frame_len bs -> ip_protocol bs <> IPPROTO_UDP ->
  exists m', run be base bs pf xm q = Some (XDP_PASS, m') /\
             trace m' = [EvLoad ETH (base + 12); EvLoad ETH (base + 13);
                         EvLoad IP (base + 23)].
Proof.
  intros He Ht Hi Hp. eexists. split; [apply run_not_udp; assumption | reflexivity].
Qed.

Lemma non_udp_passthrough_witness :
  14 <= frame_len frame_tcp /\ ethertype frame_tcp = ETH_P_IP /\
  34 <= frame_len frame_tcp /\ ip_protocol frame_tcp <> IPPROTO_UDP /\
  exists m', run false 0 frame_tcp pf_8001 xm_q3 3 = Some (XDP_PASS, m') /\
             trace m' = [EvLoad ETH (0 + 12); EvLoad ETH (0 + 13);
                         EvLoad IP (0 + 23)].
Proof.
  assert (He : 14 <= frame_len frame_tcp) by (vm_compute; congruence).
  assert (Ht : ethertype frame_tcp = ETH_P_IP) by (vm_compute; reflexivity).
  assert (Hi : 34 <= frame_len frame_tcp) by (vm_compute; congruence).
  assert (Hp : ip_protocol frame_tcp <> IPPROTO_UDP) by (vm_compute; congruence).
  repeat (split; [assumption|]).
  exact (non_udp_passthrough false 0 frame_tcp pf_8001 xm_q3 3 He Ht Hi Hp).
Defined.

(** C7 (lookup key). On every frame that passes the checks, for either
    host byte order, [port_filter] is looked up exactly under the key
    [256 * b2 + b3], where [b2] and [b3] are the bytes at offsets 2 and 3
    of the UDP header: the destination port the wire bytes denote in
    network byte order, a 16-bit value. *)
Theorem lookup_key_is_network_order_dport be base bs pf xm q P :
  accepted bs ->
  256 * byte_at bs (udp_offset bs + 2) + byte_at bs (udp_offset bs + 3) = P ->
  exists r m',
    run be base bs pf xm q = Some (r, m') /\
    0 <= P < 65536 /\
    (forall k, In (EvLookup PORT_FILTER k) (trace m') <-> k = P).
Proof.
  intros Hacc HP.
  assert (Hd : udp_dport bs = P).
  { unfold udp_dport, be16_at.
    replace (udp_offset bs + 2 + 1) with (udp_offset bs + 3) by lia. exact HP. }
  pose proof (byte_at_range bs (udp_offset bs + 2)).
  pose proof (byte_at_range bs (udp_offset bs + 3)).
  rewrite (run_accepted be base bs pf xm q Hacc), Hd.
  assert (Hk : forall (r : Z) ri tr,
    (tr = t_udp base bs \/ tr = t_redir base bs q) ->
    exists r' m', Some (r, final base bs pf xm ri tr) = Some (r', m') /\
      0 <= P < 65536 /\ (forall k, In (EvLookup PORT_FILTER k) (trace m') <-> k = P)).
  { intros r ri tr Htr. do 2 eexists. split; [reflexivity|]. split; [lia|].
    intros k. rewrite <- Hd.
    destruct Htr as [-> | ->]; unfold_traces; split.
    - intros Hin. in_cases Hin. injection Hin as <-. reflexivity.
    - intros ->. tauto.
    - intros Hin. in_cases Hin. injection Hin as <-. reflexivity.
    - intros ->. tauto. }
  destruct (pf !! P) as [v|]; [|apply Hk; left; reflexivity].
  destruct (v =? 0); [apply Hk; left; reflexivity|].
  destruct (xm !! q); apply Hk; right; reflexivity.
Qed.

(** Port 8001 is 0x1f41: the wire bytes 0x1f, 0x41 are looked up under
    8001 on a little-endian and on a big-endian host. *)
Lemma lookup_key_is_network_order_dport_witness :
  accepted frame_8001 /\
  256 * byte_at frame_8001 (udp_offset frame_8001 + 2)
    + byte_at frame_8001 (udp_offset frame_8001 + 3) = 8001 /\
  (exists r m',
     run false 0 frame_8001 pf_8001 xm_q3 3 = Some (r, m') /\
     0 <= 8001 < 65536 /\
     (forall k, In (EvLookup PORT_FILTER k) (trace m') <-> k = 8001)) /\
  (exists r m',
     run true 0 frame_8001 pf_8001 xm_q3 3 = Some (r, m') /\
     0 <= 8001 < 65536 /\
     (forall k, In (EvLookup PORT_FILTER k) (trace m') <-> k = 8001)).
Proof.
  assert (H : accepted frame_8001) by (vm_compute; repeat split; congruence).
  assert (HP : 256 * byte_at frame_8001 (udp_offset frame_8001 + 2)
               + byte_at frame_8001 (udp_offset frame_8001 + 3) = 8001)
    by (vm_compute; reflexivity).
  repeat (split; [assumption|]).
  split.
  - exact (lookup_key_is_network_order_dport false 0 frame_8001 pf_8001 xm_q3 3 8001 H HP).
  - exact (lookup_key_is_network_order_dport true 0 frame_8001 pf_8001 xm_q3 3 8001 H HP).
Defined.

(** C8 (no writes). Every invocation returns, and in the state it
    returns in, the frame (its address and its bytes), [port_filter] and
    [xsks_map] are what they were at entry. *)
Theorem classifier_writes_nothing be base bs pf xm q :
  exists r m',
    run be base bs pf xm q = Some (r, m') /\
    pkt_base m' = base /\ pkt_bytes m' = bs /\
    port_filter m' = pf /\ xsks_map m' = xm.
Proof.
  destruct (run_total be base bs pf xm q) as (r & m' & H).
  exists r, m'. split; [exact H|].
  exact (read_only_prog be _ _ _ _ H).
Qed.

(** C9 (any nonzero action redirects). For a well-formed IPv4/UDP frame
    addressed to port [P]: when [port_filter] holds any value other than
    0 for [P], the program calls [bpf_redirect_map] for the receive queue
    with fallback [XDP_PASS], and its return code is that call's; when
    the stored value is 0, or [P] has no entry, the program returns
    [XDP_PASS] without calling [bpf_redirect_map]. *)
Theorem nonzero_action_redirects be base bs pf xm q P :
  well_formed_udp bs P ->
  (forall v, pf !! P = Some v -> v <> 0 ->
     exists r m',
       run be base bs pf xm q = Some (r, m') /\
       In (EvRedirectMap XSKS_MAP q XDP_PASS) (trace m') /\
       r = match xm !! q with Some _ => XDP_REDIRECT | None => XDP_PASS end) /\
  (pf !! P = Some 0 \/ pf !! P = None ->
     exists m',
       run be base bs pf xm q = Some (XDP_PASS, m') /\
       Forall (fun e => is_redirect_call e = false) (trace m')).
Proof.
  intros (Hacc & _ & _ & <-). rewrite (run_accepted be base bs pf xm q Hacc).
  split.
  - intros v -> Hv. destruct (Z.eqb_spec v 0) as [|_]; [contradiction|].
    destruct (xm !! q); do 2 eexists; (split; [reflexivity|]);
      unfold_traces; (split; [tauto | reflexivity]).
  - intros [-> | ->]; cbn [Z.eqb]; eexists; (split; [reflexivity|]);
      unfold_traces; repeat constructor.
Qed.

Lemma nonzero_action_redirects_witness :
  well_formed_udp frame_8001 8001 /\
  exists r m',
    run false 0 frame_8001 (pf_8001_byte 255) xm_q3 3 = Some (r, m') /\
    In (EvRedirectMap XSKS_MAP 3 XDP_PASS) (trace m') /\
    r = match xm_q3 !! 3 with Some _ => XDP_REDIRECT | None => XDP_PASS end.
Proof.
  assert (H : well_formed_udp frame_8001 8001)
    by (vm_compute; repeat split; congruence).
  split; [exact H|].
  apply (proj1 (nonzero_action_redirects false 0 frame_8001 (pf_8001_byte 255)
                  xm_q3 3 8001 H) 255);
    [vm_compute; reflexivity | lia].
Defined.

(** C10 (header length below five words is not rejected). For a frame
    with EtherType IPv4, a complete fixed IPv4 header, protocol UDP and a
    header-length field below 5 for which [14 + 4 * ihl + 8] still fits,
    the two bytes loaded as [udp->dest] lie inside the fixed IPv4 header
    (frame offsets 14 to 33), they form the key of the [port_filter]
    lookup, and the return code is decided by that entry and by
    [xsks_map]. *)
Theorem short_ihl_is_not_rejected be base bs pf xm q :
  14 <= frame_len bs -> ethertype bs = ETH_P_IP ->
  34 <= frame_len bs -> ip_protocol bs = IPPROTO_UDP ->
  ip_ihl bs < 5 -> udp_offset bs + sizeof_udphdr <= frame_len bs ->
  exists r m',
    run be base bs pf xm q = Some (r, m') /\
    (14 <= udp_offset bs + offsetof_dest /\
     udp_offset bs + offsetof_dest + 1 < 14 + sizeof_iphdr) /\
    In (EvLoad UDP (base + udp_offset bs + offsetof_dest)) (trace m') /\
    In (EvLoad UDP (base + udp_offset bs + offsetof_dest + 1)) (trace m') /\
    In (EvLookup PORT_FILTER (be16_at bs (udp_offset bs + offsetof_dest))) (trace m') /\
    r = match pf !! be16_at bs (udp_offset bs + offsetof_dest) with
        | Some v =>
            if v =? 0 then XDP_PASS
            else match xm !! q with Some _ => XDP_REDIRECT | None => XDP_PASS end
        | None => XDP_PASS
        end.
Proof.
  intros He Ht Hi Hp Hihl Hu. unfold sizeof_udphdr, sizeof_iphdr, offsetof_dest in *.
  pose proof (ip_ihl_range bs) as Hr.
  rewrite run_accepted by (repeat split; assumption).
  fold (udp_dport bs).
  replace (base + udp_offset bs + 2 + 1) with (base + udp_offset bs + 3) by lia.
  assert (Hb : 14 <= udp_offset bs + 2 /\ udp_offset bs + 2 + 1 < 14 + 20)
    by (unfold udp_offset; lia).
  destruct (pf !! udp_dport bs) as [v|].
  2:{ do 2 eexists. split; [reflexivity|]. split; [exact Hb|].
      unfold_traces. tauto. }
  destruct (v =? 0).
  { do 2 eexists. split; [reflexivity|]. split; [exact Hb|].
    unfold_traces. tauto. }
  destruct (xm !! q); do 2 eexists; (split; [reflexivity|]);
    (split; [exact Hb|]); unfold_traces; tauto.
Qed.

(** On [frame_ihl0] the "destination port" is the IPv4 total-length
    field, 28; a filter entry for port 28 redirects the frame. *)
Lemma short_ihl_is_not_rejected_witness :
  (14 <= frame_len frame_ihl0 /\ ethertype frame_ihl0 = ETH_P_IP /\
   34 <= frame_len frame_ihl0 /\ ip_protocol frame_ihl0 = IPPROTO_UDP /\
   ip_ihl frame_ihl0 < 5 /\
   udp_offset frame_ihl0 + sizeof_udphdr <= frame_len frame_ihl0) /\
  exists m',
    run false 0 frame_ihl0 pf_28 xm_q3 3 = Some (XDP_REDIRECT, m') /\
    In (EvLoad UDP 16) (trace m') /\ In (EvLoad UDP 17) (trace m') /\
    In (EvLookup PORT_FILTER 28) (trace m').
Proof.
  assert (He : 14 <= frame_len frame_ihl0) by (vm_compute; congruence).
  assert (Ht : ethertype frame_ihl0 = ETH_P_IP) by (vm_compute; reflexivity).
  assert (Hi : 34 <= frame_len frame_ihl0) by (vm_compute; congruence).
  assert (Hp : ip_protocol frame_ihl0 = IPPROTO_UDP) by (vm_compute; reflexivity).
  assert (Hl : ip_ihl frame_ihl0 < 5) by (vm_compute; reflexivity).
  assert (Hu : udp_offset frame_ihl0 + sizeof_udphdr <= frame_len frame_ihl0)
    by (vm_compute; congruence).
  split; [repeat split; assumption|].
  destruct (short_ihl_is_not_rejected false 0 frame_ihl0 pf_28 xm_q3 3
              He Ht Hi Hp Hl Hu) as (r & m' & Hrun & _ & H16 & H17 & Hk & Hres).
  exists m'. rewrite Hrun, Hres.
  split; [vm_compute; reflexivity|].
  repeat split; assumption.
Defined.

(** * Further properties *)

Lemma accepted_dec bs : {accepted bs} + {~ accepted bs}.
Proof.
  unfold accepted.
  destruct (Z_le_dec 14 (frame_len bs)); [|right; tauto].
  destruct (Z.eq_dec (ethertype bs) ETH_P_IP); [|right; tauto].
  destruct (Z_le_dec 34 (frame_len bs)); [|right; tauto].
  destruct (Z.eq_dec (ip_protocol bs) IPPROTO_UDP); [|right; tauto].
  destruct (Z_le_dec (udp_offset bs + 8) (frame_len bs)); [left|right]; tauto.
Qed.

Lemma run_rejected be base bs pf xm q :
  ~ accepted bs ->
  exists tr,
    run be base bs pf xm q = Some (XDP_PASS, final base bs pf xm None tr) /\
    (tr = [] \/ tr = t_eth base \/ tr = t_proto base \/ tr = t_ihl base).
Proof.
  intros Hn. unfold accepted in Hn.
  destruct (Z.lt_ge_cases (frame_len bs) 14) as [|He].
  { eexists. split; [apply run_short_eth; assumption | tauto]. }
  destruct (Z.eq_dec (ethertype bs) ETH_P_IP) as [Ht|Ht].
  2:{ eexists. split; [apply run_not_ip; assumption | tauto]. }
  destruct (Z.lt_ge_cases (frame_len bs) 34) as [|Hi].
  { eexists. split; [apply run_short_ip; [lia | assumption] | tauto]. }
  destruct (Z.eq_dec (ip_protocol bs) IPPROTO_UDP) as [Hp|Hp].
  2:{ eexists. split; [apply run_not_udp; assumption | tauto]. }
  destruct (Z.lt_ge_cases (frame_len bs) (udp_offset bs + 8)) as [|Hu].
  { eexists. split; [apply run_short_udp; assumption | tauto]. }
  exfalso. apply Hn. repeat split; assumption.
Qed.

(** X1 (host byte order). The program compiled for a big-endian host and
    the program compiled for a little-endian host give the same return
    code and the same final state on every frame, tables and queue:
    [bpf_htons] on the constant and [bpf_ntohs] on the loaded port cancel
    the byte order of the 16-bit loads. *)
Theorem host_byte_order_is_irrelevant base bs pf xm q :
  run true base bs pf xm q = run false base bs pf xm q.
Proof. rewrite (run_wire true), (run_wire false). reflexivity. Qed.

(** X2 (exactly when a frame is redirected). The program returns
    [XDP_REDIRECT] if and only if the frame passes all three bounds
    checks with EtherType IPv4 and protocol UDP, [port_filter] holds a
    value other than 0 under the destination port, and [xsks_map] holds a
    socket under the receive queue. *)
Theorem redirected_iff be base bs pf xm q :
  (exists m', run be base bs pf xm q = Some (XDP_REDIRECT, m')) <->
  accepted bs /\
  (exists v, pf !! udp_dport bs = Some v /\ v <> 0) /\
  is_Some (xm !! q).
Proof.
  assert (Hne : XDP_PASS <> XDP_REDIRECT) by (unfold XDP_PASS, XDP_REDIRECT; lia).
  split.
  - intros [m' Hrun].
    destruct (accepted_dec bs) as [Hacc|Hn].
    + split; [exact Hacc|].
      rewrite (run_accepted be base bs pf xm q Hacc) in Hrun.
      destruct (pf !! udp_dport bs) as [v|]; [|congruence].
      destruct (Z.eqb_spec v 0); [congruence|].
      destruct (xm !! q) as [xs|]; [|congruence].
      split; [exists v; split; [reflexivity | assumption] | eexists; reflexivity].
    + destruct (run_rejected be base bs pf xm q Hn) as (tr & Hr & _).
      congruence.
  - intros (Hacc & (v & Hv & Hv0) & [xs Hxs]).
    rewrite (run_accepted be base bs pf xm q Hacc), Hv, Hxs.
    destruct (Z.eqb_spec v 0); [contradiction|]. eexists. reflexivity.
Qed.

(** X3 (frames below 34 bytes). A frame shorter than an Ethernet header
    plus a fixed IPv4 header is passed whatever its bytes are: at most
    the two EtherType bytes are loaded, no table is consulted,
    [bpf_redirect_map] is not called and no target is recorded. *)
Theorem frames_below_34_bytes_pass be base bs pf xm q :
  frame_len bs < 34 ->
  exists m',
    run be base bs pf xm q = Some (XDP_PASS, m') /\
    redirect_info m' = None /\
    (trace m' = [] \/
     14 <= frame_len bs /\
     trace m' = [EvLoad ETH (base + 12); EvLoad ETH (base + 13)]).
Proof.
  intros Hlen.
  destruct (Z.lt_ge_cases (frame_len bs) 14) as [|He].
  { eexists. split; [apply run_short_eth; assumption|].
    split; [reflexivity | left; reflexivity]. }
  destruct (Z.eq_dec (ethertype bs) ETH_P_IP) as [Ht|Ht].
  - eexists. split; [apply run_short_ip; [lia | assumption]|].
    split; [reflexivity | right; split; [assumption | reflexivity]].
  - eexists. split; [apply run_not_ip; assumption|].
    split; [reflexivity | right; split; [assumption | reflexivity]].
Qed.

Lemma frames_below_34_bytes_pass_witness :
  frame_len (take 33 frame_8001) < 34 /\
  exists m',
    run false 0 (take 33 frame_8001) pf_8001 xm_q3 3 = Some (XDP_PASS, m') /\
    redirect_info m' = None /\
    (trace m' = [] \/
     14 <= frame_len (take 33 frame_8001) /\
     trace m' = [EvLoad ETH (0 + 12); EvLoad ETH (0 + 13)]).
Proof.
  assert (H : frame_len (take 33 frame_8001) < 34) by (vm_compute; reflexivity).
  split; [exact H|].
  exact (frames_below_34_bytes_pass false 0 (take 33 frame_8001) pf_8001 xm_q3 3 H).
Defined.

(** The possible traces of a run. *)
Lemma run_traces be base bs pf xm q :
  exists r ri tr,
    run be base bs pf xm q = Some (r, final base bs pf xm ri tr) /\
    (tr = [] \/ tr = t_eth base \/ tr = t_proto base \/ tr = t_ihl base \/
     tr = t_udp base bs \/ tr = t_redir base bs q).
Proof.
  destruct (accepted_dec bs) as [Hacc|Hn].
  - rewrite (run_accepted be base bs pf xm q Hacc).
    destruct (pf !! udp_dport bs) as [v|]; [|do 3 eexists; split; [reflexivity | tauto]].
    destruct (v =? 0); [do 3 eexists; split; [reflexivity | tauto]|].
    destruct (xm !! q); do 3 eexists; (split; [reflexivity | tauto]).
  - destruct (run_rejected be base bs pf xm q Hn) as (tr & Hr & Htr).
    exists XDP_PASS, None, tr. split; [exact Hr | tauto].
Qed.

(** X4 (bounded work). On every frame the program loads at most six
    bytes of the frame, looks a key up at most once and calls
    [bpf_redirect_map] at most once. *)
Theorem work_per_frame_is_bounded be base bs pf xm q :
  exists r m',
    run be base bs pf xm q = Some (r, m') /\
    (count_events is_load (trace m') <= 6)%nat /\
    (count_events is_lookup (trace m') <= 1)%nat /\
    (count_events is_redirect_call (trace m') <= 1)%nat.
Proof.
  destruct (run_traces be base bs pf xm q) as (r & ri & tr & Hrun & Htr).
  exists r, (final base bs pf xm ri tr). split; [exact Hrun|].
  cbn [trace final].
  destruct Htr as [-> | [-> | [-> | [-> | [-> | ->]]]]];
    unfold count_events; cbn; repeat split; lia.
Qed.

Lemma udp_dport_range bs : 0 <= udp_dport bs < 65536.
Proof.
  unfold udp_dport, be16_at.
  pose proof (byte_at_range bs (udp_offset bs + 2)).
  pose proof (byte_at_range bs (udp_offset bs + 2 + 1)). lia.
Qed.

(** X5 (what the helpers are asked). On every frame, every lookup the
    program makes is in [port_filter] under a key in [0 .. 65535], and
    every redirect it requests is on [xsks_map], under the receive queue
    of the frame, with fallback [XDP_PASS]. *)
Theorem helper_calls_are_disciplined be base bs pf xm q :
  exists r m',
    run be base bs pf xm q = Some (r, m') /\
    Forall (helper_call_ok q) (trace m').
Proof.
  destruct (run_traces be base bs pf xm q) as (r & ri & tr & Hrun & Htr).
  exists r, (final base bs pf xm ri tr). split; [exact Hrun|].
  cbn [trace final]. pose proof (udp_dport_range bs).
  destruct Htr as [-> | [-> | [-> | [-> | [-> | ->]]]]];
    unfold t_redir, t_udp, t_ihl, t_proto, t_eth; cbn [app];
    repeat constructor; assumption || lia.
Qed.

(** X6 (one key per table). The outcome depends on [port_filter] only
    through its entry for the destination port of the frame and on
    [xsks_map] only through its entry for the receive queue: tables that
    agree there give the same return code, recorded target and trace. *)
Theorem tables_are_read_at_one_key be base bs pf pf' xm xm' q :
  pf !! udp_dport bs = pf' !! udp_dport bs ->
  xm !! q = xm' !! q ->
  exists r ri tr,
    run be base bs pf xm q = Some (r, final base bs pf xm ri tr) /\
    run be base bs pf' xm' q = Some (r, final base bs pf' xm' ri tr).
Proof.
  intros Hpf Hxm.
  destruct (accepted_dec bs) as [Hacc|Hn].
  - rewrite !(run_accepted be base bs _ _ q Hacc), <- Hpf, <- Hxm.
    destruct (pf !! udp_dport bs) as [v|]; [|do 3 eexists; split; reflexivity].
    destruct (v =? 0); [do 3 eexists; split; reflexivity|].
    destruct (xm !! q); do 3 eexists; split; reflexivity.
  - unfold accepted in Hn. rewrite !run_wire. unfold xdp_filter_wire.
    destruct (frame_len bs <? 14) eqn:E1; [do 3 eexists; split; reflexivity|].
    destruct (ethertype bs =? ETH_P_IP) eqn:E2; cbn [negb];
      [|do 3 eexists; split; reflexivity].
    destruct (frame_len bs <? 34) eqn:E3; [do 3 eexists; split; reflexivity|].
    destruct (ip_protocol bs =? IPPROTO_UDP) eqn:E4; cbn [negb];
      [|do 3 eexists; split; reflexivity].
    destruct (frame_len bs <? udp_offset bs + 8) eqn:E5;
      [do 3 eexists; split; reflexivity|].
    exfalso. apply Hn.
    apply Z.ltb_ge in E1, E3, E5. apply Z.eqb_eq in E2, E4. tauto.
Qed.

Lemma tables_are_read_at_one_key_witness :
  pf_8001 !! udp_dport frame_8001
    = (<[53 := ACTION_REDIRECT]> pf_8001) !! udp_dport frame_8001 /\
  xm_q3 !! 3 = (<[0 := 5]> xm_q3) !! 3 /\
  exists r ri tr,
    run false 0 frame_8001 pf_8001 xm_q3 3
      = Some (r, final 0 frame_8001 pf_8001 xm_q3 ri tr) /\
    run false 0 frame_8001 (<[53 := ACTION_REDIRECT]> pf_8001) (<[0 := 5]> xm_q3) 3
      = Some (r, final 0 frame_8001 (<[53 := ACTION_REDIRECT]> pf_8001)
                   (<[0 := 5]> xm_q3) ri tr).
Proof.
  assert (Hpf : pf_8001 !! udp_dport frame_8001
                = (<[53 := ACTION_REDIRECT]> pf_8001) !! udp_dport frame_8001)
    by (vm_compute; reflexivity).
  assert (Hxm : xm_q3 !! 3 = (<[0 := 5]> xm_q3) !! 3) by (vm_compute; reflexivity).
  repeat (split; [assumption|]).
  exact (tables_are_read_at_one_key false 0 frame_8001 pf_8001
           (<[53 := ACTION_REDIRECT]> pf_8001) xm_q3 (<[0 := 5]> xm_q3) 3 Hpf Hxm).
Defined.




Lemma byte_at_app bs tl i :
  0 <= i < frame_len bs -> byte_at (bs ++ tl) i = byte_at bs i.
Proof.
  intros Hi. unfold byte_at, frame_len in *.
  rewrite lookup_app_l by lia. reflexivity.
Qed.

(** X8 (payload). For a frame at least 34 bytes long that reaches up to
    [14 + 4 * ihl + 8], bytes appended at its end change neither the
    return code nor the recorded target nor the trace. *)
Theorem payload_is_irrelevant be base bs tl pf xm q :
  34 <= frame_len bs -> udp_offset bs + 8 <= frame_len bs ->
  exists r ri tr,
    run be base bs pf xm q = Some (r, final base bs pf xm ri tr) /\
    run be base (bs ++ tl) pf xm q = Some (r, final base (bs ++ tl) pf xm ri tr).
Proof.
  intros Hi Hu. pose proof (udp_offset_ge bs) as Hge.
  assert (Hl : frame_len bs <= frame_len (bs ++ tl))
    by (unfold frame_len; rewrite length_app; lia).
  assert (Ht : ethertype (bs ++ tl) = ethertype bs)
    by (unfold ethertype, be16_at; rewrite !byte_at_app by lia; reflexivity).
  assert (Hp : ip_protocol (bs ++ tl) = ip_protocol bs)
    by (unfold ip_protocol; rewrite byte_at_app by lia; reflexivity).
  assert (Hh : ip_ihl (bs ++ tl) = ip_ihl bs)
    by (unfold ip_ihl; rewrite byte_at_app by lia; reflexivity).
  assert (Ho : udp_offset (bs ++ tl) = udp_offset bs)
    by (unfold udp_offset; rewrite Hh; reflexivity).
  assert (Hd : udp_dport (bs ++ tl) = udp_dport bs)
    by (unfold udp_dport, be16_at; rewrite Ho, !byte_at_app by lia; reflexivity).
  rewrite !run_wire. unfold xdp_filter_wire, t_redir, t_udp.
  rewrite Ht, Hp, Ho, Hd.
  destruct (Z.ltb_spec (frame_len bs) 14); [lia|].
  destruct (Z.ltb_spec (frame_len (bs ++ tl)) 14); [lia|].
  destruct (negb (ethertype bs =? ETH_P_IP)); [do 3 eexists; split; reflexivity|].
  destruct (Z.ltb_spec (frame_len bs) 34); [lia|].
  destruct (Z.ltb_spec (frame_len (bs ++ tl)) 34); [lia|].
  destruct (negb (ip_protocol bs =? IPPROTO_UDP)); [do 3 eexists; split; reflexivity|].
  destruct (Z.ltb_spec (frame_len bs) (udp_offset bs + 8)); [lia|].
  destruct (Z.ltb_spec (frame_len (bs ++ tl)) (udp_offset bs + 8)); [lia|].
  destruct (pf !! udp_dport bs) as [v|]; [|do 3 eexists; split; reflexivity].
  destruct (v =? 0); [do 3 eexists; split; reflexivity|].
  destruct (xm !! q); do 3 eexists; split; reflexivity.
Qed.

Lemma payload_is_irrelevant_witness :
  34 <= frame_len frame_8001 /\ udp_offset frame_8001 + 8 <= frame_len frame_8001 /\
  exists r ri tr,
    run false 0 frame_8001 pf_8001 xm_q3 3
      = Some (r, final 0 frame_8001 pf_8001 xm_q3 ri tr) /\
    run false 0 (frame_8001 ++ frame_of [1;2;3]) pf_8001 xm_q3 3
      = Some (r, final 0 (frame_8001 ++ frame_of [1;2;3]) pf_8001 xm_q3 ri tr).
Proof.
  assert (Hi : 34 <= frame_len frame_8001) by (vm_compute; congruence).
  assert (Hu : udp_offset frame_8001 + 8 <= frame_len frame_8001)
    by (vm_compute; congruence).
  repeat (split; [assumption|]).
  exact (payload_is_irrelevant false 0 frame_8001 (frame_of [1;2;3])
           pf_8001 xm_q3 3 Hi Hu).
Defined.

(** X9 (empty tables). With an empty [port_filter] every frame is passed
    and [bpf_redirect_map] is never called; with an empty [xsks_map]
    every frame is passed and no target is recorded. *)
Theorem empty_table_passes_every_frame be base bs pf xm q :
  (exists m', run be base bs ∅ xm q = Some (XDP_PASS, m') /\
              Forall (fun e => is_redirect_call e = false) (trace m')) /\
  (exists m', run be base bs pf ∅ q = Some (XDP_PASS, m') /\
              redirect_info m' = None).
Proof.
  split.
  - destruct (accepted_dec bs) as [Hacc|Hn].
    + rewrite (run_accepted be base bs ∅ xm q Hacc), lookup_empty.
      eexists. split; [reflexivity|].
      cbn [trace final]. unfold t_udp, t_ihl, t_proto, t_eth. cbn [app].
      repeat constructor.
    + destruct (run_rejected be base bs ∅ xm q Hn) as (tr & Hr & Htr).
      eexists. split; [exact Hr|]. cbn [trace final].
      destruct Htr as [-> | [-> | [-> | ->]]];
        unfold t_ihl, t_proto, t_eth; cbn [app]; repeat constructor.
  - destruct (accepted_dec bs) as [Hacc|Hn].
    + rewrite (run_accepted be base bs pf ∅ q Hacc), lookup_empty.
      destruct (pf !! udp_dport bs) as [v|]; [|eexists; split; reflexivity].
      destruct (v =? 0); eexists; split; reflexivity.
    + destruct (run_rejected be base bs pf ∅ q Hn) as (tr & Hr & _).
      eexists. split; [exact Hr | reflexivity].
Qed.

(** X10 (queues beyond [max_entries]). [xsks_map] is declared with 64
    entries; when it holds sockets only under the keys 0 to 63, every
    frame received on a queue outside that range is passed, whatever
    [port_filter] says. *)
Theorem queues_beyond_max_entries_pass be base bs pf xm q :
  xsks_map_wf xm -> ~ (0 <= q < xsks_map_max_entries) ->
  exists m', run be base bs pf xm q = Some (XDP_PASS, m') /\
             redirect_info m' = None.
Proof.
  intros Hwf Hq.
  assert (Hnone : xm !! q = None).
  { destruct (xm !! q) as [xs|] eqn:E; [|reflexivity].
    exfalso. apply Hq, Hwf. rewrite E. eexists. reflexivity. }
  destruct (accepted_dec bs) as [Hacc|Hn].
  - rewrite (run_accepted be base bs pf xm q Hacc), Hnone.
    destruct (pf !! udp_dport bs) as [v|]; [|eexists; split; reflexivity].
    destruct (v =? 0); eexists; split; reflexivity.
  - destruct (run_rejected be base bs pf xm q Hn) as (tr & Hr & _).
    eexists. split; [exact Hr | reflexivity].
Qed.

Lemma queues_beyond_max_entries_pass_witness :
  xsks_map_wf xm_q3 /\ ~ (0 <= 64 < xsks_map_max_entries) /\
  exists m', run false 0 frame_8001 pf_8001 xm_q3 64 = Some (XDP_PASS, m') /\
             redirect_info m' = None.
Proof.
  assert (Hwf : xsks_map_wf xm_q3).
  { intros k [xs Hk]. unfold xm_q3 in Hk.
    apply lookup_singleton_Some in Hk as [<- _].
    unfold xsks_map_max_entries. lia. }
  assert (Hq : ~ (0 <= 64 < xsks_map_max_entries))
    by (unfold xsks_map_max_entries; lia).
  repeat (split; [assumption|]).
  exact (queues_beyond_max_entries_pass false 0 frame_8001 pf_8001 xm_q3 64 Hwf Hq).
Defined.

(** ** Loads stay inside the window [ctx->data .. ctx->data_end] *)

Lemma window_ok_log lo hi e m :
  load_within lo hi e -> window_ok lo hi m -> window_ok lo hi (log e m).
Proof.
  intros He (Hb & Hh & Ht). unfold window_ok.
  change (pkt_base (log e m)) with (pkt_base m).
  change (pkt_end (log e m)) with (pkt_end m).
  change (trace (log e m)) with (trace m ++ [e]).
  repeat split; try assumption.
  apply Forall_app. split; [assumption|].
  constructor; [exact He | constructor].
Qed.

Lemma window_ok_set_redirect_info lo hi r m :
  window_ok lo hi m -> window_ok lo hi (set_redirect_info r m).
Proof. intros H. exact H. Qed.

Lemma triple_ret lo hi {A} (a : A) (Q : A -> Prop) :
  Q a -> triple lo hi (ret a) Q.
Proof. intros HQ m Hm. exists a, m. split; [reflexivity | split; assumption]. Qed.

Lemma triple_bind lo hi {A B} (c : M A) (k : A -> M B) P Q :
  triple lo hi c P -> (forall a, P a -> triple lo hi (k a) Q) ->
  triple lo hi (bind c k) Q.
Proof.
  intros Hc Hk m Hm.
  destruct (Hc m Hm) as (a & m1 & E & HP & Hm1).
  destruct (Hk a HP m1 Hm1) as (b & m2 & E2 & HQ & Hm2).
  exists b, m2. unfold bind. rewrite E. split; [exact E2 | split; assumption].
Qed.

Lemma triple_load8 lo hi v addr :
  lo <= addr < hi -> triple lo hi (load8 v addr) (fun b => 0 <= b < 256).
Proof.
  intros Ha m Hm. pose proof Hm as (Hb & Hh & _).
  unfold load8, pkt_end in *.
  destruct (Z.leb_spec (pkt_base m) addr); [|lia].
  destruct (lookup_lt_is_Some_2 (pkt_bytes m) (Z.to_nat (addr - pkt_base m)))
    as [b ->]; [lia|].
  do 2 eexists. split; [reflexivity|].
  split; [apply Z_of_byte_range|].
  apply window_ok_log; [exact Ha | exact Hm].
Qed.

Lemma triple_load16 lo hi be v addr :
  lo <= addr -> addr + 1 < hi ->
  triple lo hi (load16 be v addr) (fun _ => True).
Proof.
  intros Hl Hh. unfold load16.
  eapply triple_bind; [apply triple_load8; lia|]. intros b0 _.
  eapply triple_bind; [apply triple_load8; lia|]. intros b1 _.
  apply triple_ret. exact I.
Qed.

Lemma triple_lookup lo hi mp key :
  triple lo hi (bpf_map_lookup_elem mp key) (fun _ => True).
Proof.
  intros m Hm. do 2 eexists. split; [reflexivity|].
  split; [exact I|]. apply window_ok_log; [exact I | exact Hm].
Qed.

Lemma triple_redirect_pass lo hi mp key :
  triple lo hi (bpf_redirect_map mp key XDP_PASS)
    (fun r => r = XDP_PASS \/ r = XDP_REDIRECT).
Proof.
  intros m Hm. unfold bpf_redirect_map.
  change (negb (Z.land XDP_PASS (Z.lnot 3) =? 0)) with false. cbv iota.
  change (Z.land XDP_PASS 3) with XDP_PASS.
  destruct (map_contents mp m !! key) as [xs|];
    do 2 eexists; (split; [reflexivity|]);
    (split; [tauto|]);
    apply window_ok_set_redirect_info, window_ok_log; exact I || exact Hm.
Qed.

Lemma triple_prog be ctx :
  triple (data ctx) (data_end ctx) (xdp_filter_prog be ctx)
    (fun r => r = XDP_PASS \/ r = XDP_REDIRECT).
Proof.
  unfold xdp_filter_prog. cbv zeta.
  unfold sizeof_ethhdr, sizeof_iphdr, sizeof_udphdr, offsetof_h_proto,
    offsetof_protocol, offsetof_ihl, offsetof_dest.
  destruct (Z.gtb_spec (data ctx + 14) (data_end ctx)) as [|He];
    [apply triple_ret; tauto|].
  eapply triple_bind; [apply triple_load16; lia|]. intros h_proto _.
  destruct (negb (h_proto =? bpf_htons be ETH_P_IP)); [apply triple_ret; tauto|].
  destruct (Z.gtb_spec (data ctx + 14 + 20) (data_end ctx)) as [|Hi];
    [apply triple_ret; tauto|].
  eapply triple_bind; [apply triple_load8; lia|]. intros protocol _.
  destruct (negb (protocol =? IPPROTO_UDP)); [apply triple_ret; tauto|].
  eapply triple_bind; [apply triple_load8; lia|]. intros ver_ihl _.
  assert (Hihl : 0 <= Z.land ver_ihl 15) by (apply Z.land_nonneg; right; lia).
  destruct (Z.gtb_spec (data ctx + 14 + Z.land ver_ihl 15 * 4 + 8) (data_end ctx))
    as [|Hu]; [apply triple_ret; tauto|].
  eapply triple_bind; [apply triple_load16; lia|]. intros dest _.
  eapply triple_bind; [apply triple_lookup|]. intros [a|] _;
    [|apply triple_ret; tauto].
  destruct (a =? 0); [apply triple_ret; tauto|].
  apply triple_redirect_pass.
Qed.

(** X11 (the window of the context). When the buffer extends before
    [ctx->data] or after [ctx->data_end], the program still does not
    fault, returns [XDP_PASS] or [XDP_REDIRECT], and loads only bytes at
    addresses from [ctx->data] up to, not including, [ctx->data_end]:
    the checks compare against [data_end], not against the buffer. *)
Theorem loads_stay_inside_ctx_window be ctx m :
  pkt_base m <= data ctx -> data_end ctx <= pkt_end m -> trace m = [] ->
  exists r m',
    xdp_filter_prog be ctx m = Some (r, m') /\
    (r = XDP_PASS \/ r = XDP_REDIRECT) /\
    Forall (load_within (data ctx) (data_end ctx)) (trace m').
Proof.
  intros Hb Hh Ht.
  destruct (triple_prog be ctx m) as (r & m' & E & Hr & _ & _ & Hw).
  - repeat split; try assumption. rewrite Ht. constructor.
  - exists r, m'. repeat split; assumption.
Qed.

Lemma loads_stay_inside_ctx_window_witness :
  pkt_base machine_8001_buffered <= data ctx_8001_cut /\
  data_end ctx_8001_cut <= pkt_end machine_8001_buffered /\
  trace machine_8001_buffered = [] /\
  exists r m',
    xdp_filter_prog false ctx_8001_cut machine_8001_buffered = Some (r, m') /\
    (r = XDP_PASS \/ r = XDP_REDIRECT) /\
    Forall (load_within (data ctx_8001_cut) (data_end ctx_8001_cut)) (trace m').
Proof.
  assert (Hb : pkt_base machine_8001_buffered <= data ctx_8001_cut)
    by (vm_compute; congruence).
  assert (Hh : data_end ctx_8001_cut <= pkt_end machine_8001_buffered)
    by (vm_compute; congruence).
  assert (Ht : trace machine_8001_buffered = []) by reflexivity.
  repeat (split; [assumption|]).
  exact (loads_stay_inside_ctx_window false ctx_8001_cut machine_8001_buffered
           Hb Hh Ht).
Defined.
